(** * Flagger: the CloudWatch metric provider and the canary scheduler

    A shallow embedding of [pkg/metrics/providers/cloudwatch.go] and of the
    scheduler scenarios of [pkg/controller] (the daemonset scheduler tests),
    followed by the properties the specification states about them.

    Go values are embedded as follows: a string is a [string] (a sequence of
    bytes), [int] and [int64] are [Z] (with the 64-bit wrap-around written out
    where the code does arithmetic), [float64] is the kernel's binary64
    [float], a pointer is an [option] ([None] is nil), a slice is a [list],
    and a function returning [(T, error)] returns a pair whose second
    component is [option error].  A nil dereference is a [Panic]. *)

From Stdlib Require Import ZArith List String Ascii Bool Lia.
From Stdlib Require Import Floats.PrimFloat.
Import ListNotations.

Local Open Scope string_scope.
Local Open Scope Z_scope.

(* ------------------------------------------------------------------ *)
(** ** Package [strings]: the two trimming functions the provider calls *)

Module strings.

(** [strings.ContainsRune(cutset, c)] for a cutset of ASCII bytes. *)
Definition inCutset (cutset : string) (c : ascii) : bool :=
  existsb (Ascii.eqb c) (list_ascii_of_string cutset).

(** [strings.TrimLeft(s, cutset)]: [s] without its leading bytes that belong
    to [cutset].  (For an ASCII cutset Go trims byte by byte.) *)
Fixpoint TrimLeft (s cutset : string) : string :=
  match s with
  | EmptyString => EmptyString
  | String c s' => if inCutset cutset c then TrimLeft s' cutset else s
  end.

(** [strings.TrimRight(s, cutset)]: [s] without its trailing bytes that
    belong to [cutset]. *)
Fixpoint TrimRight (s cutset : string) : string :=
  match s with
  | EmptyString => EmptyString
  | String c s' =>
      match TrimRight s' cutset with
      | EmptyString =>
          if inCutset cutset c then EmptyString else String c EmptyString
      | r => String c r
      end
  end.





(** First and last byte of a string. *)
Definition first (s : string) : option ascii :=
  match s with EmptyString => None | String c _ => Some c end.



End strings.

(* ------------------------------------------------------------------ *)
(** ** Package [providers]: [cloudwatch.go] *)

Module providers.

(** *** Go values *)

Definition float64 := float.
Definition ptr (A : Type) := option A.

(** [time.Duration] is an [int64] count of nanoseconds; [time.Time] is an
    instant, counted in nanoseconds from the zero [time.Time{}]. *)
Definition Duration := Z.
Definition Time := Z.
Definition zeroTime : Time := 0.

(** 64-bit two's-complement wrap-around of [int64] arithmetic. *)
Definition wrap64 (z : Z) : Z := (z + 2 ^ 63) mod 2 ^ 64 - 2 ^ 63.

(** [t.Add(d)]. *)
Definition Add (t : Time) (d : Duration) : Time := t + d.

(** An [error] value.  [RequestFailure] stands for the errors that implement
    [awserr.RequestFailure] (they carry an HTTP status code); [errorString]
    for every other error, among them the ones [fmt.Errorf] builds.  Each
    carries the text its [Error()] method returns. *)
Inductive error : Type :=
| errorString (text : string)
| RequestFailure (statusCode : Z) (text : string).

Definition Error (e : error) : string :=
  match e with
  | errorString text => text
  | RequestFailure _ text => text
  end.

(** [fmt.Errorf(prefix + "%s", arg)] for the one-verb formats of this file. *)
Definition Errorf (prefix arg : string) : error := errorString (prefix ++ arg).

(** [net/http]: [http.StatusBadRequest]. *)
Definition StatusBadRequest : Z := 400.

(** *** The constants of [cloudwatch.go] *)

Definition cloudWatchMaxRetries : Z := 3.
Definition cloudWatchStartDeltaMultiplierOnMetricInterval : Z := 10.

(** *** The AWS SDK types the file uses
    [MetricDataQuery] and [Session] are opaque to the provider: it only
    passes them on. *)

Record Config : Type := mkConfig
  { Region : ptr string;
    MaxRetries : ptr Z;
    Endpoint : ptr string }.

Record MetricDataResult : Type := mkMetricDataResult
  { Id : ptr string;
    Label : ptr string;
    Values : list (ptr float64) }.

Record GetMetricDataOutput : Type := mkGetMetricDataOutput
  { MetricDataResults : list (ptr MetricDataResult);
    NextToken : ptr string }.

(** A Go call either returns or panics (here: on a nil dereference). *)
Inductive result (A : Type) : Type :=
| Returns (a : A)
| Panics.
Arguments Returns {A} a.
Arguments Panics {A}.

Section WithSDK.

Variable MetricDataQuery : Type.
Variable Session : Type.

Record GetMetricDataInput : Type := mkGetMetricDataInput
  { EndTime : ptr Time;
    MaxDatapoints : ptr Z;
    StartTime : ptr Time;
    MetricDataQueries : list (ptr MetricDataQuery) }.

(** [type cloudWatchClient interface { GetMetricData(input) (output, error) }]:
    an implementation is the function that answers a request. *)
Record cloudWatchClient : Type := mkClient
  { GetMetricData :
      GetMetricDataInput -> ptr GetMetricDataOutput * option error }.

Record CloudWatchProvider : Type := mkCloudWatchProvider
  { client : cloudWatchClient;
    startDelta : Duration }.

(** What the provider calls outside this repository: [encoding/json],
    [time.ParseDuration], the AWS session and client constructors, and the
    SDK's [String()] of a response. *)
Record SDK : Type := mkSDK
  { json_Unmarshal : string -> list (ptr MetricDataQuery) * option error;
    time_ParseDuration : string -> Duration * option error;
    session_NewSession : Config -> ptr Session * option error;
    (* [cloudwatch.New] dereferences the session: [None] is its panic *)
    cloudwatch_New : ptr Session -> option cloudWatchClient;
    output_String : GetMetricDataOutput -> string }.

(** *** Effects
    A provider method reads the clock and calls the backend.  [World] holds
    the clock and the requests sent so far; a computation returns or panics,
    and threads the world. *)

Record World : Type := mkWorld
  { clock : Time;
    requests : list GetMetricDataInput }.

Definition M (A : Type) : Type := World -> result A * World.

Definition ret {A} (a : A) : M A := fun w => (Returns a, w).

Definition bind {A B} (m : M A) (k : A -> M B) : M B :=
  fun w =>
    match m w with
    | (Returns a, w') => k a w'
    | (Panics, w') => (Panics, w')
    end.

Definition panic {A} : M A := fun w => (Panics, w).

Notation "x <- m ;; k" := (bind m (fun x => k))
  (at level 61, m at next level, right associativity).
Notation "' pat <- m ;; k" := (bind m (fun x => match x with pat => k end))
  (at level 61, pat pattern, m at next level, right associativity).

(** [time.Now()]. *)
Definition Now : M Time := fun w => (Returns (clock w), w).

(** [p.client.GetMetricData(input)]: the request reaches the backend (it is
    appended to [requests]) and the client's answer comes back. *)
Definition call (c : cloudWatchClient) (input : GetMetricDataInput)
  : M (ptr GetMetricDataOutput * option error) :=
  fun w =>
    (Returns (GetMetricData c input),
     mkWorld (clock w) (requests w ++ [input])).

(** [*p] and [s[0]]: a nil pointer or an empty slice panics. *)
Definition deref {A} (p : ptr A) : M A :=
  match p with
  | Some a => ret a
  | None => panic
  end.

Definition index0 {A} (s : list A) : M A :=
  match s with
  | a :: _ => ret a
  | [] => panic
  end.

(** [len(s)] as a Go [int]. *)
Definition len {A} (s : list A) : Z := Z.of_nat (List.length s).

(** [aws.Float64Value(v)]: the pointed value, 0 for nil. *)
Definition Float64Value (v : ptr float64) : float64 :=
  match v with
  | Some x => x
  | None => 0%float
  end.

Variable sdk : SDK.

(** *** [NewCloudWatchProvider] *)

(** Lines 36-43: the region is trimmed out of the provider address and put
    in the configuration [session.NewSession] receives,
    [aws.NewConfig().WithRegion(region).WithMaxRetries(..).WithEndpoint(..)]. *)
Definition sessionConfig (address : string) : Config :=
  let region := strings.TrimLeft address "monitoring." in
  let region := strings.TrimRight region ".amazonaws.com" in
  mkConfig (Some region) (Some cloudWatchMaxRetries) (Some address).

(** [NewCloudWatchProvider(metricInterval, provider)], with
    [provider.Address] as [address].  The second [err :=] of the source
    re-assigns [err]: the session's error is dropped there. *)
Definition NewCloudWatchProvider (metricInterval address : string)
  : result (ptr CloudWatchProvider * option error) :=
  let '(sess, err) := session_NewSession sdk (sessionConfig address) in
  let '(md, err) := time_ParseDuration sdk metricInterval in
  match err with
  | Some e => Returns (None, Some (Errorf "error parsing metric interval: " (Error e)))
  | None =>
      match cloudwatch_New sdk sess with
      | None => Panics
      | Some c =>
          Returns
            (Some (mkCloudWatchProvider c
                     (wrap64 (cloudWatchStartDeltaMultiplierOnMetricInterval * md))),
             err)
      end
  end.

(** *** [RunQuery] *)

Definition RunQuery (p : CloudWatchProvider) (query : string)
  : M (float64 * option error) :=
  let '(cq, err) := json_Unmarshal sdk query in
  match err with
  | Some e => ret (0%float, Some (Errorf "error unmarshaling query: " (Error e)))
  | None =>
      end_ <- Now ;;
      let start := Add end_ (wrap64 (- startDelta p)) in
      '(res, err) <- call (client p)
                       (mkGetMetricDataInput (Some end_) (Some 20) (Some start) cq) ;;
      match err with
      | Some e => ret (0%float, Some (Errorf "error requesting cloudwatch: " (Error e)))
      | None =>
          res <- deref res ;;
          let mr := MetricDataResults res in
          if len mr <? 1 then
            ret (0%float,
                 Some (Errorf "no values found in response: " (output_String sdk res)))
          else
            r0 <- index0 (MetricDataResults res) ;;
            r0 <- deref r0 ;;
            let vs := Values r0 in
            if len vs <? 1 then
              ret (0%float,
                   Some (Errorf "no values found in response: " (output_String sdk res)))
            else
              v0 <- index0 vs ;;
              ret (Float64Value v0, None)
      end
  end.

(** *** [IsOnline] *)

Definition IsOnline (p : CloudWatchProvider) : M (bool * option error) :=
  '(_, err) <- call (client p)
                 (mkGetMetricDataInput (Some zeroTime) None (Some zeroTime) []) ;;
  match err with
  | None => ret (true, None)
  | Some e =>
      match e with
      | RequestFailure statusCode _ =>
          if negb (statusCode =? StatusBadRequest) then
            ret (false, Some (Errorf "unexpected status code: " (Error e)))
          else ret (true, None)
      | errorString _ =>
          ret (false, Some (Errorf "unexpected error: " (Error e)))
      end
  end.

End WithSDK.

Arguments mkGetMetricDataInput {MetricDataQuery} _ _ _ _.
Arguments EndTime {MetricDataQuery} _.
Arguments MaxDatapoints {MetricDataQuery} _.
Arguments StartTime {MetricDataQuery} _.
Arguments MetricDataQueries {MetricDataQuery} _.
Arguments mkClient {MetricDataQuery} _.
Arguments GetMetricData {MetricDataQuery} _ _.
Arguments mkCloudWatchProvider {MetricDataQuery} _ _.
Arguments client {MetricDataQuery} _.
Arguments startDelta {MetricDataQuery} _.
Arguments mkSDK {MetricDataQuery Session} _ _ _ _ _.
Arguments json_Unmarshal {MetricDataQuery Session} _ _.
Arguments time_ParseDuration {MetricDataQuery Session} _ _.
Arguments session_NewSession {MetricDataQuery Session} _ _.
Arguments cloudwatch_New {MetricDataQuery Session} _ _.
Arguments output_String {MetricDataQuery Session} _ _.
Arguments mkWorld {MetricDataQuery} _ _.
Arguments clock {MetricDataQuery} _.
Arguments requests {MetricDataQuery} _.
Arguments ret {MetricDataQuery A} a _.
Arguments bind {MetricDataQuery A B} m k _.
Arguments panic {MetricDataQuery A} _.
Arguments Now {MetricDataQuery} _.
Arguments call {MetricDataQuery} c input _.
Arguments deref {MetricDataQuery A} p _.
Arguments index0 {MetricDataQuery A} s _.
Arguments NewCloudWatchProvider {MetricDataQuery Session} sdk metricInterval address.
Arguments RunQuery {MetricDataQuery Session} sdk p query _.
Arguments IsOnline {MetricDataQuery} p _.

(** The request [RunQuery] sends at time [now] for the decoded queries [cq]
    (lines 64-71), and the probe [IsOnline] sends (lines 95-99). *)
Definition queryRequest {MetricDataQuery} (p : CloudWatchProvider MetricDataQuery)
    (cq : list (ptr MetricDataQuery)) (now : Time)
  : GetMetricDataInput MetricDataQuery :=
  mkGetMetricDataInput (Some now) (Some 20)
    (Some (Add now (wrap64 (- startDelta p)))) cq.

Definition probeRequest {MetricDataQuery} : GetMetricDataInput MetricDataQuery :=
  mkGetMetricDataInput (Some zeroTime) None (Some zeroTime) [].

(** The SDK with another error (or none) coming out of [session.NewSession]. *)
Definition withSessionError {MetricDataQuery Session}
    (sdk : SDK MetricDataQuery Session) (err : Config -> option error)
  : SDK MetricDataQuery Session :=
  mkSDK (json_Unmarshal sdk) (time_ParseDuration sdk)
        (fun cfg => (fst (session_NewSession sdk cfg), err cfg))
        (cloudwatch_New sdk) (output_String sdk).




(** *** A sample backend, for the examples below *)

Definition sampleResults : list (ptr MetricDataResult) :=
  [Some (mkMetricDataResult (Some "q1") None [Some 42.5%float; Some 7%float]);
   Some (mkMetricDataResult (Some "q2") None [Some 1%float])].

(** The first series is empty, the second is not. *)
Definition laterResults : list (ptr MetricDataResult) :=
  [Some (mkMetricDataResult (Some "q1") None []);
   Some (mkMetricDataResult (Some "q2") None [Some 1.5%float])].

Definition answering (results : list (ptr MetricDataResult))
  : cloudWatchClient string :=
  mkClient (fun _ => (Some (mkGetMetricDataOutput results None), None)).

Definition failing (e : error) : cloudWatchClient string :=
  mkClient (fun _ => (None, Some e)).

Definition sampleSDK : SDK string unit :=
  mkSDK
    (fun query =>
       if String.eqb query "[]" then ([], None)
       else ([], Some (errorString "unexpected end of JSON input")))
    (fun s =>
       if String.eqb s "1m" then (60000000000, None)
       else (0, Some (errorString "time: invalid duration")))
    (fun cfg => (Some tt, None))
    (fun sess => match sess with
                 | Some _ => Some (answering sampleResults)
                 | None => None
                 end)
    (fun _ => "{}").

Definition sampleWorld : World string := mkWorld 1000000000000 [].

(** The values of an [int64]. *)
Definition isInt64 (z : Z) : Prop := - 2 ^ 63 <= z < 2 ^ 63.

(** The formats of the three [fmt.Errorf] calls of [RunQuery] (lines 61, 74,
    79 and 84), up to their verb. *)
Definition errorPrefixes : list string :=
  ["error unmarshaling query: ";
   "error requesting cloudwatch: ";
   "no values found in response: "].

(** A client that breaks the SDK's contract: no output and no error. *)
Definition silent : cloudWatchClient string :=
  mkClient (fun _ => (None, None)).

(** The sample SDK with a [time.ParseDuration] that reads every interval as
    10^18 nanoseconds, the duration of "277777h46m40s". *)
Definition longIntervalSDK : SDK string unit :=
  mkSDK (json_Unmarshal sampleSDK) (fun _ => (1000000000000000000, None))
        (session_NewSession sampleSDK) (cloudwatch_New sampleSDK)
        (output_String sampleSDK).

End providers.

(* ------------------------------------------------------------------ *)
(** ** Package [controller]: the canary scheduler and its daemonset tests

    Only the scheduler's tests are among the sources
    ([TestScheduler_DaemonSet*]); [advanceCanary] itself, the API types of
    [flaggerv1], the fixture constructors and the mocks are not.  They are
    modelled from the specification, and the tests are then run against the
    model. *)

Module controller.

Definition float64 := float.

(** Modelled from the spec: [flaggerv1.CanaryPhase], whose declaration is
    not among the sources; the states are those of section 4.2. *)
Inductive CanaryPhase : Type :=
| CanaryPhaseInitializing
| CanaryPhaseInitialized
| CanaryPhaseWaitingPromotion
| CanaryPhaseProgressing
| CanaryPhaseWaitingOrSkipped
| CanaryPhasePromoting
| CanaryPhaseFinalising
| CanaryPhaseSucceeded
| CanaryPhaseFailed
| CanaryPhaseTerminated.

Scheme Equality for CanaryPhase.

(** Modelled from the spec: [flaggerv1.CanaryThresholdRange], whose
    declaration is not among the sources: the inclusive band of a range
    check, either bound optional (section 4.2; set at lines 173-176). *)
Record CanaryThresholdRange : Type := mkRange
  { Min : option float64;
    Max : option float64 }.

(** Modelled from the spec: [flaggerv1.CanaryMetric], whose declaration is
    not among the sources: a named query, an interval and a threshold range
    (section 3), with the fields the test sets at lines 170-178. *)
Record CanaryMetric : Type := mkMetric
  { Name : string;
    Interval : string;
    ThresholdRange : option CanaryThresholdRange;
    Query : string }.

(** Modelled from the spec: the routing strategy of a rollout, a tagged
    variant of the "advance one step" behaviour (section 9): a weight step
    and maximum with or without the mirroring prelude, or a number of
    iterations. *)
Inductive Strategy : Type :=
| Weighted (stepWeight maxWeight : Z) (mirror : bool)
| Iterated (iterations : Z).

(** Modelled from the spec: [flaggerv1.CanaryAnalysis] (read as
    [cd.Spec.Analysis] at line 170), whose declaration is not among the
    sources: the strategy, the failure maximum and the metric checks. *)
Record CanaryAnalysis : Type := mkAnalysis
  { Advance : Strategy;
    Threshold : Z;
    Metrics : list CanaryMetric }.

(** Modelled from the spec: [flaggerv1.CanarySpec] (read as [cd.Spec] at
    lines 170 and 203), whose declaration is not among the sources. *)
Record CanarySpec : Type := mkSpec
  { SkipAnalysis : bool;
    (* the rollout's policy for a failed rollout: back to Initialized, or not *)
    RetryAfterRollback : bool;
    Analysis : CanaryAnalysis }.

(** Modelled from the spec: [flaggerv1.CanaryStatus], whose declaration is
    not among the sources: the persisted rollout status of section 3. *)
Record CanaryStatus : Type := mkStatus
  { Phase : CanaryPhase;
    CanaryWeight : Z;
    FailedChecks : Z;
    Iterations : Z;
    LastAppliedSpec : Z }.

(** Modelled from the spec: the traffic split the Router holds (section 6:
    primary weight, canary weight, mirror flag). *)
Record Routes : Type := mkRoutes
  { primaryWeight : Z;
    canaryWeight : Z;
    mirrored : bool }.

(** Modelled from the spec: the test fixture ([mocks], built by
    [newDaemonSetFixture], which is not among the sources): the rollout
    definition, its persisted status, and the collaborators of section 6.  [target] is the fingerprint of the
    canary workload's template and referenced configuration, [primary] the
    fingerprint the primary workload runs ([None] before it exists),
    [observer] the metric provider's answer to a query; [queries] and
    [alerts] log the provider calls and the alerts sent. *)
Record Fixture : Type := mkFixture
  { canary : CanarySpec;
    status : CanaryStatus;
    router : Routes;
    target : Z;
    primary : option Z;
    healthy : bool;
    observer : string -> float64 * option providers.error;
    queries : list string;
    alerts : list string }.

Definition withStatus (f : Fixture) (s : CanaryStatus) : Fixture :=
  mkFixture (canary f) s (router f) (target f) (primary f) (healthy f)
            (observer f) (queries f) (alerts f).

Definition withRouter (f : Fixture) (r : Routes) : Fixture :=
  mkFixture (canary f) (status f) r (target f) (primary f) (healthy f)
            (observer f) (queries f) (alerts f).

Definition withPrimary (f : Fixture) (p : option Z) : Fixture :=
  mkFixture (canary f) (status f) (router f) (target f) p (healthy f)
            (observer f) (queries f) (alerts f).

Definition withCanary (f : Fixture) (cd : CanarySpec) : Fixture :=
  mkFixture cd (status f) (router f) (target f) (primary f) (healthy f)
            (observer f) (queries f) (alerts f).

Definition withTarget (f : Fixture) (t : Z) : Fixture :=
  mkFixture (canary f) (status f) (router f) t (primary f) (healthy f)
            (observer f) (queries f) (alerts f).

Definition withHealthy (f : Fixture) (h : bool) : Fixture :=
  mkFixture (canary f) (status f) (router f) (target f) (primary f) h
            (observer f) (queries f) (alerts f).

Definition withObserver (f : Fixture)
    (o : string -> float64 * option providers.error) : Fixture :=
  mkFixture (canary f) (status f) (router f) (target f) (primary f) (healthy f)
            o (queries f) (alerts f).

Definition logQueries (f : Fixture) (qs : list string) : Fixture :=
  mkFixture (canary f) (status f) (router f) (target f) (primary f) (healthy f)
            (observer f) (queries f ++ qs) (alerts f).

Definition logAlert (f : Fixture) (a : string) : Fixture :=
  mkFixture (canary f) (status f) (router f) (target f) (primary f) (healthy f)
            (observer f) (queries f) (alerts f ++ [a]).

Definition withPhase (s : CanaryStatus) (p : CanaryPhase) : CanaryStatus :=
  mkStatus p (CanaryWeight s) (FailedChecks s) (Iterations s) (LastAppliedSpec s).

Definition withFailedChecks (s : CanaryStatus) (n : Z) : CanaryStatus :=
  mkStatus (Phase s) (CanaryWeight s) n (Iterations s) (LastAppliedSpec s).

(** Modelled from the spec: the collaborator calls of the tests, whose mocks
    are not among the sources: [router.GetRoutes] and [router.SetRoutes]
    (section 6), and [deployer.SyncStatus] (line 162: phase and failed checks
    are given, the weight and the iterations are the zero value). *)
Definition GetRoutes (f : Fixture) : Z * Z * bool :=
  (primaryWeight (router f), canaryWeight (router f), mirrored (router f)).

Definition SetRoutes (f : Fixture) (p c : Z) (m : bool) : Fixture :=
  withRouter f (mkRoutes p c m).

Definition SyncStatus (f : Fixture) (p : CanaryPhase) (failedChecks : Z)
  : Fixture :=
  withStatus f (mkStatus p 0 failedChecks 0 (LastAppliedSpec (status f))).

(** Modelled from the spec: the drift test of the Deployer
    ([hasTargetChanged], section 6), which is not among the sources.  A drift
    is a difference between the canary's current template/config and what
    was last analysed (glossary). *)
Definition hasTargetChanged (f : Fixture) : bool :=
  negb (target f =? LastAppliedSpec (status f)).

(** Modelled from the spec: the metric threshold evaluation of section 4.2,
    which is not among the sources.  A range check fails when the observed
    value lies outside [[min, max]], either bound being optional; a provider
    error fails the check. *)
Definition outsideRange (r : CanaryThresholdRange) (v : float64) : bool :=
  match Min r with Some lo => PrimFloat.ltb v lo | None => false end
  || match Max r with Some hi => PrimFloat.ltb hi v | None => false end.

Definition checkPasses (f : Fixture) (m : CanaryMetric) : bool :=
  match observer f (Query m) with
  | (_, Some _) => false
  | (v, None) =>
      match ThresholdRange m with
      | Some r => negb (outsideRange r v)
      | None => true
      end
  end.

(** Modelled from the spec: the checks that fail on this tick, in
    declaration order; every check is evaluated before the failure count is
    updated (section 3). *)
Definition failingChecks (f : Fixture) : list CanaryMetric :=
  filter (fun m => negb (checkPasses f m)) (Metrics (Analysis (canary f))).

(** *** The transitions of section 4.2
    [advanceCanary], which performs them, is not among the sources.  Each
    transition is the entry action of the state it leads to, together with
    the phase change. *)

(** Modelled from the spec: the reset on a new drift mid-flight; weight
    reverted to 0% canary, counters reset, analysis restarts from the top. *)
Definition reset (f : Fixture) : Fixture :=
  withStatus (withRouter f (mkRoutes 100 0 false))
             (mkStatus CanaryPhaseProgressing 0 0 0 (target f)).

(** Modelled from the spec: [Initializing -> Initialized]; the primary
    exists and the Router has the initial 100/0 split. *)
Definition initialize (f : Fixture) : Fixture :=
  withStatus (withPrimary (withRouter f (mkRoutes 100 0 false)) (Some (target f)))
             (mkStatus CanaryPhaseInitialized 0 0 0 (target f)).

(** Modelled from the spec: [Initialized -> Progressing] on a drift;
    [failedChecks] resets on entering [Progressing] fresh. *)
Definition startAnalysis (f : Fixture) : Fixture :=
  withStatus f (mkStatus CanaryPhaseProgressing (CanaryWeight (status f)) 0 0
                         (target f)).

(** Modelled from the spec: [Promoting]; the Deployer copies the canary
    into the primary, the Router is not yet touched. *)
Definition promote (f : Fixture) : Fixture :=
  withStatus (withPrimary f (Some (target f)))
             (withPhase (status f) CanaryPhasePromoting).

(** Modelled from the spec: [Promoting -> Finalising]; the Router is reset
    to 100% primary, 0% canary (the weights are back at 100/0 "at
    Finalising", section 8, and at line 316 of the promotion test). *)
Definition finalise (f : Fixture) : Fixture :=
  withStatus (withRouter f (mkRoutes 100 0 false))
             (mkStatus CanaryPhaseFinalising 0 (FailedChecks (status f))
                       (Iterations (status f)) (LastAppliedSpec (status f))).

(** Modelled from the spec: [Finalising -> Succeeded].  (The Deployer's
    scaling of the canary bears on neither phase nor weights and is left
    out.) *)
Definition succeed (f : Fixture) : Fixture :=
  withStatus f (withPhase (status f) CanaryPhaseSucceeded).

(** Modelled from the spec: [Failed] (rollback); the Router is reset to
    100/0 immediately, [failedChecks] is reset, and an alert citing the
    failed check is sent. *)
Definition rollback (f : Fixture) (check : string) : Fixture :=
  logAlert
    (withStatus (withRouter f (mkRoutes 100 0 false))
                (mkStatus CanaryPhaseFailed 0 0 (Iterations (status f))
                          (LastAppliedSpec (status f))))
    check.

(** Modelled from the spec: the traffic-weight-stepping algorithm of
    section 4.2; on a successful tick the canary weight grows by
    [min(step, max - current)] and the primary weight shrinks by the same
    amount, and the mirror flag is cleared by a weight step.  The weights
    are the ones the Router reports. *)
Definition stepWeights (stepWeight maxWeight : Z) (r : Routes) : Routes :=
  let delta := Z.min stepWeight (maxWeight - canaryWeight r) in
  mkRoutes (primaryWeight r - delta) (canaryWeight r + delta) false.

(** Modelled from the spec: the successful ordinary step of [Progressing];
    the mirroring prelude, the weight step or the iteration, up to the
    configured maximum, then [Promoting]. *)
Definition advance (f : Fixture) : Fixture :=
  let s := withFailedChecks (status f) 0 in
  match Advance (Analysis (canary f)) with
  | Weighted stepWeight maxWeight mirror =>
      let r := router f in
      if canaryWeight r <? maxWeight then
        if mirror && (canaryWeight r =? 0) && negb (mirrored r) then
          (* the one-tick mirroring prelude *)
          withStatus (withRouter f (mkRoutes (primaryWeight r) (canaryWeight r) true)) s
        else
          let r' := stepWeights stepWeight maxWeight r in
          withStatus (withRouter f r')
                     (mkStatus (Phase s) (canaryWeight r') 0 (Iterations s)
                               (LastAppliedSpec s))
      else promote (withStatus f s)
  | Iterated iterations =>
      if Iterations s <? iterations then
        (* the iteration counter advances instead of the weight; while the
           iterations run the target's traffic goes to the canary
           ([TestScheduler_DaemonSetABTesting], lines 400-405) *)
        withStatus (withRouter f (mkRoutes 0 100 false))
                   (mkStatus (Phase s) 100 0 (Iterations s + 1)
                             (LastAppliedSpec s))
      else promote (withStatus f s)
  end.

(** Modelled from the spec: the ordinary step of [Progressing] when the
    analysis is not skipped; run the metric checks, count a failing tick
    once, roll back at the configured maximum, advance on success. *)
Definition analyse (f : Fixture) : Fixture :=
  let f := logQueries f (map Query (Metrics (Analysis (canary f)))) in
  match failingChecks f with
  | m :: _ =>
      let failed := FailedChecks (status f) + 1 in
      if Threshold (Analysis (canary f)) <=? failed then rollback f (Name m)
      else withStatus f (withFailedChecks (status f) failed)
  | [] => advance f
  end.

(** Modelled from the spec: the scheduler tick [advanceCanary], which is not
    among the sources, as the deterministic function of phase and
    observations of section 4.2.  [onSkip] is what a [Progressing] tick does
    when [SkipAnalysis] is set. *)
Definition advanceCanaryWith (onSkip : Fixture -> Fixture) (f : Fixture)
  : Fixture :=
  match Phase (status f) with
  | CanaryPhaseInitializing => if healthy f then initialize f else f
  | CanaryPhaseInitialized => if hasTargetChanged f then startAnalysis f else f
  | CanaryPhaseProgressing =>
      if hasTargetChanged f then reset f
      else if SkipAnalysis (canary f) then onSkip f
      else analyse f
  | CanaryPhasePromoting =>
      if hasTargetChanged f then reset f
      else if healthy f then finalise f else f
  | CanaryPhaseFinalising =>
      if hasTargetChanged f then reset f else succeed f
  | CanaryPhaseWaitingPromotion | CanaryPhaseWaitingOrSkipped =>
      if hasTargetChanged f then reset f else f
  | CanaryPhaseFailed =>
      if RetryAfterRollback (canary f)
      then withStatus f (withPhase (status f) CanaryPhaseInitialized)
      else f
  | CanaryPhaseSucceeded | CanaryPhaseTerminated => f
  end.

(** The skip of the analysis as the repository's test observes it
    ([TestScheduler_DaemonSetSkipAnalysis], lines 212-220: [Succeeded] one
    tick after the drift was detected): the whole promotion, with its three
    transitions, happens within the tick. *)
Definition skipAnalysis (f : Fixture) : Fixture :=
  succeed (finalise (promote f)).

(** Modelled from the spec: [advanceCanary], which is not among the sources;
    the tick of section 4.2, with the skip as the test above pins it down. *)
Definition advanceCanary : Fixture -> Fixture := advanceCanaryWith skipAnalysis.

(** Modelled from the spec: the same tick with the skip rule in the
    specification's own words, "if [SkipAnalysis] is set, jump straight to
    [Promoting]". *)
Definition advanceCanary_spec : Fixture -> Fixture := advanceCanaryWith promote.

(** *** The fixture and the tests
    The fixture constructors ([newDaemonSetFixture], [newDaemonSetTestCanary]
    and its variants, the mock observer) are not among the sources.  The
    rollout is the scenario of section 8: step 10, max 50, two metric checks
    that always pass; the failure maximum 10 is the one line 161 names
    ("update failed checks to max"). *)

(** Modelled from the spec: the mock metric provider of the fixture; every
    query returns the same value, with no error. *)
Definition mockObserver (query : string) : float64 * option providers.error :=
  (100%float, None).

(** Modelled from the spec: two metric checks that always pass (section 8)
    with the mock observer. *)
Definition newDaemonSetTestMetrics : list CanaryMetric :=
  [ mkMetric "request-success-rate" "1m" (Some (mkRange (Some 99%float) None))
             "request-success-rate";
    mkMetric "request-duration" "1m" (Some (mkRange None (Some 500%float)))
             "request-duration" ].

(** Modelled from the spec: [newDaemonSetTestCanary]; step 10, max 50,
    failure maximum 10. *)
Definition newDaemonSetTestCanary : CanarySpec :=
  mkSpec false false (mkAnalysis (Weighted 10 50 false) 10 newDaemonSetTestMetrics).

(** Modelled from the spec: [newDaemonSetTestCanaryMirror]; the same with
    mirroring enabled. *)
Definition newDaemonSetTestCanaryMirror : CanarySpec :=
  mkSpec false false (mkAnalysis (Weighted 10 50 true) 10 newDaemonSetTestMetrics).

(** Modelled from the spec: [newDaemonSetTestCanaryAB]; an iteration-based
    analysis of 10 iterations (line 411 sets the status to that maximum). *)
Definition newDaemonSetTestCanaryAB : CanarySpec :=
  mkSpec false false (mkAnalysis (Iterated 10) 10 newDaemonSetTestMetrics).

(** Modelled from the spec: fingerprints of the workload revisions the tests
    apply (the daemonset of the fixture, its second version, and that
    version after a further change of the template or of a config object). *)
Definition newDaemonSetTestDaemonSet : Z := 1.
Definition newDaemonSetTestDaemonSetV2 : Z := 2.
Definition daemonSetV2WithServiceAccount : Z := 3.
Definition daemonSetV2WithConfigMapV2 : Z := 4.
Definition daemonSetV2WithConfigMapV2SecretV2 : Z := 5.

(** Modelled from the spec: [newDaemonSetFixture(c)]; a rollout that has not
    been initialized, with the default rollout definition for a nil [c]. *)
Definition newDaemonSetFixture (c : option CanarySpec) : Fixture :=
  mkFixture
    (match c with Some cd => cd | None => newDaemonSetTestCanary end)
    (mkStatus CanaryPhaseInitializing 0 0 0 0)
    (mkRoutes 0 0 false)
    newDaemonSetTestDaemonSet None true mockObserver [] [].

(** Modelled from the spec: [kubeClient...Update(..)] of the canary workload
    or of a config object it references, and
    [flaggerClient...Canaries(..).Update(cd)], on the fake clients of the
    fixture. *)
Definition Update (f : Fixture) (revision : Z) : Fixture := withTarget f revision.
Definition UpdateCanary (f : Fixture) (cd : CanarySpec) : Fixture := withCanary f cd.

(** Modelled from the spec: [deployer.SetStatusIterations(cd, n)]. *)
Definition SetStatusIterations (f : Fixture) (n : Z) : Fixture :=
  withStatus f (mkStatus (Phase (status f)) (CanaryWeight (status f))
                         (FailedChecks (status f)) n (LastAppliedSpec (status f))).

Definition routesAre (f : Fixture) (p c : Z) (m : bool) : bool :=
  let '(primaryWeight, canaryWeight, mirrored) := GetRoutes f in
  (primaryWeight =? p) && (canaryWeight =? c) && Bool.eqb mirrored m.

Definition phaseIs (f : Fixture) (p : CanaryPhase) : bool :=
  CanaryPhase_beq (Phase (status f)) p.

Section Tests.

(** The tick under test: [mocks.ctrl.advanceCanary("podinfo", "default", true)]. *)
Variable tick : Fixture -> Fixture.

(** Each test is the conjunction of its assertions. *)

Definition TestScheduler_DaemonSetInit : bool :=
  let mocks := newDaemonSetFixture None in
  let mocks := tick mocks in
  match primary mocks with Some _ => true | None => false end.

Definition TestScheduler_DaemonSetRollback : bool :=
  let mocks := newDaemonSetFixture None in
  (* init *)
  let mocks := tick mocks in
  (* update failed checks to max *)
  let mocks := SyncStatus mocks CanaryPhaseProgressing 10 in
  (* set a metric check to fail *)
  let c := canary mocks in
  let cd :=
    mkSpec (SkipAnalysis c) (RetryAfterRollback c)
      (mkAnalysis (Advance (Analysis c)) (Threshold (Analysis c))
         (Metrics (Analysis c) ++
          [mkMetric "fail" "1m"
             (Some (mkRange (Some 0%float) (Some 50%float))) "fail"])) in
  let mocks := UpdateCanary mocks cd in
  (* run metric checks *)
  let mocks := tick mocks in
  (* finalise analysis *)
  let mocks := tick mocks in
  phaseIs mocks CanaryPhaseFailed.

Definition TestScheduler_DaemonSetSkipAnalysis : bool :=
  let mocks := newDaemonSetFixture None in
  (* init *)
  let mocks := tick mocks in
  (* enable skip *)
  let cd := canary mocks in
  let mocks :=
    UpdateCanary mocks (mkSpec true (RetryAfterRollback cd) (Analysis cd)) in
  (* update *)
  let mocks := Update mocks newDaemonSetTestDaemonSetV2 in
  (* detect changes *)
  let mocks := tick mocks in
  (* advance *)
  let mocks := tick mocks in
  SkipAnalysis (canary mocks) && phaseIs mocks CanaryPhaseSucceeded.

Definition TestScheduler_DaemonSetNewRevisionReset : bool :=
  let mocks := newDaemonSetFixture None in
  (* init *)
  let mocks := tick mocks in
  (* first update *)
  let mocks := Update mocks newDaemonSetTestDaemonSetV2 in
  (* detect changes *)
  let mocks := tick mocks in
  (* advance *)
  let mocks := tick mocks in
  let a1 := routesAre mocks 90 10 false in
  (* second update *)
  let mocks := Update mocks daemonSetV2WithServiceAccount in
  (* detect changes *)
  let mocks := tick mocks in
  a1 && routesAre mocks 100 0 false.

Definition TestScheduler_DaemonSetPromotion : bool :=
  let mocks := newDaemonSetFixture None in
  (* init *)
  let mocks := tick mocks in
  let a1 := phaseIs mocks CanaryPhaseInitialized in
  (* update *)
  let mocks := Update mocks newDaemonSetTestDaemonSetV2 in
  (* detect pod spec changes *)
  let mocks := tick mocks in
  let mocks := Update mocks daemonSetV2WithConfigMapV2 in
  let mocks := Update mocks daemonSetV2WithConfigMapV2SecretV2 in
  (* detect configs changes *)
  let mocks := tick mocks in
  let '(_, _, mirrored) := GetRoutes mocks in
  let mocks := SetRoutes mocks 60 40 mirrored in
  (* advance *)
  let mocks := tick mocks in
  let a2 := phaseIs mocks CanaryPhaseProgressing in
  (* promote *)
  let mocks := tick mocks in
  let a3 := phaseIs mocks CanaryPhasePromoting in
  (* finalise *)
  let mocks := tick mocks in
  let a4 := routesAre mocks 100 0 false in
  let a5 :=
    match primary mocks with
    | Some image => image =? daemonSetV2WithConfigMapV2SecretV2
    | None => false
    end in
  let a6 := phaseIs mocks CanaryPhaseFinalising in
  (* scale canary to zero *)
  let mocks := tick mocks in
  a1 && a2 && a3 && a4 && a5 && a6 && phaseIs mocks CanaryPhaseSucceeded.

Definition TestScheduler_DaemonSetMirroring : bool :=
  let mocks := newDaemonSetFixture (Some newDaemonSetTestCanaryMirror) in
  (* init *)
  let mocks := tick mocks in
  (* update *)
  let mocks := Update mocks newDaemonSetTestDaemonSetV2 in
  (* detect pod spec changes *)
  let mocks := tick mocks in
  (* advance *)
  let mocks := tick mocks in
  let a1 := routesAre mocks 100 0 true in
  (* advance *)
  let mocks := tick mocks in
  a1 && routesAre mocks 90 10 false.

Definition TestScheduler_DaemonSetABTesting : bool :=
  let mocks := newDaemonSetFixture (Some newDaemonSetTestCanaryAB) in
  (* init *)
  let mocks := tick mocks in
  (* update *)
  let mocks := Update mocks newDaemonSetTestDaemonSetV2 in
  (* detect pod spec changes *)
  let mocks := tick mocks in
  (* advance *)
  let mocks := tick mocks in
  let a1 := routesAre mocks 0 100 false in
  (* set max iterations *)
  let mocks := SetStatusIterations mocks 10 in
  (* advance *)
  let mocks := tick mocks in
  (* finalising *)
  let mocks := tick mocks in
  let a2 := phaseIs mocks CanaryPhaseFinalising in
  let a3 :=
    match primary mocks with
    | Some image => image =? newDaemonSetTestDaemonSetV2
    | None => false
    end in
  (* shutdown canary *)
  let mocks := tick mocks in
  a1 && a2 && a3 && phaseIs mocks CanaryPhaseSucceeded.

End Tests.

(** *** Runs of the scheduler

    What happens to a rollout between and at its ticks: the scheduler ticks,
    the operator applies a new revision or edits the rollout definition, the
    metric backend and the Deployer's health report change, another actor
    writes the Router's split. *)
Inductive Event : Type :=
| Tick
| Apply (revision : Z)
| Configure (cd : CanarySpec)
| Observe (o : string -> float64 * option providers.error)
| Health (h : bool)
| Route (p c : Z) (m : bool).

Definition step (f : Fixture) (ev : Event) : Fixture :=
  match ev with
  | Tick => advanceCanary f
  | Apply revision => Update f revision
  | Configure cd => UpdateCanary f cd
  | Observe o => withObserver f o
  | Health h => withHealthy f h
  | Route p c m => SetRoutes f p c m
  end.

Definition run (evs : list Event) (f : Fixture) : Fixture :=
  fold_left step evs f.

(** Weights are integer percentages summing to 100 (section 6). *)
Definition percentages (p c : Z) : Prop := 0 <= p /\ 0 <= c /\ p + c = 100.

(** A rollout definition whose step does not move backwards and whose
    maximum is a percentage. *)
Definition wellFormed (cd : CanarySpec) : Prop :=
  match Advance (Analysis cd) with
  | Weighted stepWeight maxWeight _ => 0 <= stepWeight /\ maxWeight <= 100
  | Iterated _ => True
  end.

(** Another actor's write keeps the split at 100 in total. *)
Definition keepsSplit (ev : Event) : Prop :=
  match ev with
  | Route p c _ => p + c = 100
  | _ => True
  end.

(** The events of a run in which the Router's contract and the rollout
    definition stay well-formed. *)
Definition admissible (ev : Event) : Prop :=
  match ev with
  | Route p c _ => percentages p c
  | Configure cd => wellFormed cd
  | _ => True
  end.

(** The split the Router reports adds up to 100 once the rollout is
    initialized. *)
Definition splitKept (f : Fixture) : Prop :=
  Phase (status f) = CanaryPhaseInitializing
  \/ primaryWeight (router f) + canaryWeight (router f) = 100.

(** With a well-formed rollout definition the split stays a pair of
    percentages. *)
Definition percentagesKept (f : Fixture) : Prop :=
  wellFormed (canary f)
  /\ (Phase (status f) = CanaryPhaseInitializing
      \/ percentages (primaryWeight (router f)) (canaryWeight (router f))).


(** *** Fixtures of the examples *)




(** The scenarios of section 8 of the specification: the phase and the
    routes after each tick that follows an applied revision. *)
Fixpoint observe (ticks : nat) (f : Fixture)
  : list (CanaryPhase * (Z * Z * bool)) :=
  match ticks with
  | O => []
  | S n =>
      let f' := advanceCanary f in
      (Phase (status f'), GetRoutes f') :: observe n f'
  end.

Definition scenarioFixture (threshold : Z) (o : string -> float64 * option providers.error)
  : Fixture :=
  let cd := mkSpec false false
              (mkAnalysis (Weighted 10 50 false) threshold newDaemonSetTestMetrics) in
  withObserver
    (Update (advanceCanary (newDaemonSetFixture (Some cd)))
            newDaemonSetTestDaemonSetV2)
    o.

(** [TestScheduler_DaemonSetNewRevisionReset] up to its first assertion. *)
Definition newRevisionRun : list Event :=
  [Tick; Apply newDaemonSetTestDaemonSetV2; Tick; Tick].

End controller.

(* ------------------------------------------------------------------ *)
(** * Properties of the CloudWatch provider *)

Section ProviderFacts.

Import providers.

Context {MetricDataQuery Session : Type}.
Variable sdk : SDK MetricDataQuery Session.
Variable p : CloudWatchProvider MetricDataQuery.

Lemma len_nil (A : Type) : (len (@nil A) <? 1) = true.
Proof. reflexivity. Qed.

Lemma len_cons (A : Type) (a : A) (l : list A) : (len (a :: l) <? 1) = false.
Proof.
  unfold len. apply Z.ltb_ge. rewrite length_cons, Nat2Z.inj_succ. lia.
Qed.

(** [RunQuery] before its request: a query that does not decode. *)
Lemma RunQuery_unmarshal_error query cq e w :
  json_Unmarshal sdk query = (cq, Some e) ->
  RunQuery sdk p query w =
    (Returns (0%float, Some (Errorf "error unmarshaling query: " (Error e))), w).
Proof.
  intros Hq. unfold RunQuery. rewrite Hq. reflexivity.
Qed.

(** [RunQuery] up to the backend's answer: one request is sent, and what
    follows depends on the answer alone. *)
Lemma RunQuery_request query cq w :
  json_Unmarshal sdk query = (cq, None) ->
  let input := queryRequest p cq (clock w) in
  let w' := mkWorld (clock w) (requests w ++ [input]) in
  RunQuery sdk p query w =
    match GetMetricData (client p) input with
    | (_, Some e) =>
        (Returns (0%float, Some (Errorf "error requesting cloudwatch: " (Error e))), w')
    | (None, None) => (Panics, w')
    | (Some res, None) =>
        match MetricDataResults res with
        | [] =>
            (Returns (0%float, Some (Errorf "no values found in response: "
                                        (output_String sdk res))), w')
        | None :: _ => (Panics, w')
        | Some r0 :: _ =>
            match Values r0 with
            | [] =>
                (Returns (0%float, Some (Errorf "no values found in response: "
                                            (output_String sdk res))), w')
            | v0 :: _ => (Returns (Float64Value v0, None), w')
            end
        end
    end.
Proof.
  intros Hq input w'. subst input w'.
  unfold RunQuery, queryRequest. rewrite Hq.
  unfold bind, Now, call. cbn -[Z.add wrap64 len Z.ltb].
  destruct (GetMetricData (client p) _) as [[res|] [e|]]; try reflexivity.
  cbn -[len Z.ltb].
  destruct (MetricDataResults res) as [|[r0|] rest].
  - reflexivity.
  - rewrite len_cons. cbn -[len Z.ltb].
    destruct (Values r0) as [|v0 vs].
    + reflexivity.
    + rewrite len_cons. reflexivity.
  - rewrite len_cons. reflexivity.
Qed.

(** C1: when the query decodes and the backend's response has a FIRST
    result whose Values list is non-empty, RunQuery returns the first value
    of that first result (through aws.Float64Value) with a nil error, after
    exactly one request; the other results and values play no part. *)
Theorem RunQuery_first_value query cq w res r0 rest v0 vs :
  json_Unmarshal sdk query = (cq, None) ->
  GetMetricData (client p) (queryRequest p cq (clock w)) = (Some res, None) ->
  MetricDataResults res = Some r0 :: rest ->
  Values r0 = v0 :: vs ->
  RunQuery sdk p query w =
    (Returns (Float64Value v0, None),
     mkWorld (clock w) (requests w ++ [queryRequest p cq (clock w)])).
Proof.
  intros Hq Hres Hmr Hvs.
  rewrite (RunQuery_request _ _ _ Hq). cbv zeta.
  rewrite Hres, Hmr, Hvs. reflexivity.
Qed.

(** C2: when the call succeeds with an empty MetricDataResults list, or with
    a first result whose Values list is empty, RunQuery returns the value 0
    and the non-nil "no values found in response" error, whatever the later
    results hold. *)
Theorem RunQuery_no_data query cq w res :
  json_Unmarshal sdk query = (cq, None) ->
  GetMetricData (client p) (queryRequest p cq (clock w)) = (Some res, None) ->
  (MetricDataResults res = [] \/
   exists r0 rest, MetricDataResults res = Some r0 :: rest /\ Values r0 = []) ->
  RunQuery sdk p query w =
    (Returns (0%float,
              Some (Errorf "no values found in response: " (output_String sdk res))),
     mkWorld (clock w) (requests w ++ [queryRequest p cq (clock w)])).
Proof.
  intros Hq Hres Hempty.
  rewrite (RunQuery_request _ _ _ Hq). cbv zeta. rewrite Hres.
  destruct Hempty as [Hmr | (r0 & rest & Hmr & Hvs)].
  - rewrite Hmr. reflexivity.
  - rewrite Hmr, Hvs. reflexivity.
Qed.

(** C4: a query string that json.Unmarshal rejects makes RunQuery return the
    non-nil "error unmarshaling query" error, and no request reaches the
    backend: the list of requests is the one before the call. *)
Theorem RunQuery_malformed_query query cq e w :
  json_Unmarshal sdk query = (cq, Some e) ->
  fst (RunQuery sdk p query w) =
    Returns (0%float, Some (Errorf "error unmarshaling query: " (Error e)))
  /\ requests (snd (RunQuery sdk p query w)) = requests w.
Proof.
  intros Hq. rewrite (RunQuery_unmarshal_error _ _ _ _ Hq). split; reflexivity.
Qed.

(** C10: whenever RunQuery returns a non-nil error, the float64 it returns
    with it is exactly 0. *)
Theorem RunQuery_error_value query w v e w' :
  RunQuery sdk p query w = (Returns (v, Some e), w') -> v = 0%float.
Proof.
  destruct (json_Unmarshal sdk query) as [cq [e0|]] eqn:Hq.
  - rewrite (RunQuery_unmarshal_error _ _ _ _ Hq). congruence.
  - rewrite (RunQuery_request _ _ _ Hq). cbv zeta.
    destruct (GetMetricData (client p) _) as [[res|] [e1|]]; try congruence.
    destruct (MetricDataResults res) as [|[r0|] rest]; try congruence.
    destruct (Values r0) as [|v0 vs]; congruence.
Qed.

(** The three outcomes of [IsOnline], by the error of the probe. *)
Lemma IsOnline_cases w :
  IsOnline p w =
    (Returns
       match snd (GetMetricData (client p) probeRequest) with
       | None => (true, None)
       | Some (RequestFailure statusCode text) =>
           if statusCode =? 400 then (true, None)
           else (false, Some (Errorf "unexpected status code: " text))
       | Some (errorString text) =>
           (false, Some (Errorf "unexpected error: " text))
       end,
     mkWorld (clock w) (requests w ++ [probeRequest])).
Proof.
  unfold IsOnline, bind, call, probeRequest. cbn -[Z.eqb].
  destruct (GetMetricData (client p) _) as [res [[text|statusCode text]|]];
    cbn -[Z.eqb]; try reflexivity.
  unfold StatusBadRequest. destruct (statusCode =? 400); reflexivity.
Qed.

(** C3: IsOnline returns (true, nil) when the probe succeeds or fails with a
    request failure of status 400, and (false, non-nil error) for every
    other failure, a failure that is no AWS request failure included. *)
Theorem IsOnline_reachability w :
  let err := snd (GetMetricData (client p) probeRequest) in
  let online :=
    err = None \/ exists text, err = Some (RequestFailure StatusBadRequest text) in
  (online -> fst (IsOnline p w) = Returns (true, None))
  /\ (~ online -> exists e, fst (IsOnline p w) = Returns (false, Some e))
  /\ (forall text, err = Some (errorString text) ->
      exists e, fst (IsOnline p w) = Returns (false, Some e)).
Proof.
  cbv zeta. rewrite IsOnline_cases. cbn [fst]. unfold StatusBadRequest.
  destruct (snd (GetMetricData (client p) probeRequest))
    as [[text|statusCode text]|].
  - split; [|split].
    + intros [H | (t & H)]; discriminate.
    + intros _. eexists. reflexivity.
    + intros t _. eexists. reflexivity.
  - destruct (Z.eqb_spec statusCode 400) as [->|Hne].
    + split; [|split].
      * reflexivity.
      * intros H. exfalso. apply H. right. exists text. reflexivity.
      * intros t H. discriminate.
    + split; [|split].
      * intros [H | (t & H)]; [discriminate | congruence].
      * intros _. eexists. reflexivity.
      * intros t H. discriminate.
  - split; [|split].
    + reflexivity.
    + intros H. exfalso. apply H. left. reflexivity.
    + intros t H. discriminate.
Qed.

(** [NewCloudWatchProvider] by the outcome of [time.ParseDuration]: the
    session's error appears nowhere in the result. *)
Lemma NewCloudWatchProvider_cases metricInterval address :
  NewCloudWatchProvider sdk metricInterval address =
    match time_ParseDuration sdk metricInterval with
    | (_, Some e) =>
        Returns (None, Some (Errorf "error parsing metric interval: " (Error e)))
    | (md, None) =>
        match cloudwatch_New sdk
                (fst (session_NewSession sdk (sessionConfig address))) with
        | Some c =>
            Returns (Some (mkCloudWatchProvider c (wrap64 (10 * md))), None)
        | None => Panics
        end
    end.
Proof.
  unfold NewCloudWatchProvider.
  destruct (session_NewSession sdk (sessionConfig address)) as [sess err].
  destruct (time_ParseDuration sdk metricInterval) as [md [e|]]; reflexivity.
Qed.

(** C8: NewCloudWatchProvider returns a non-nil error exactly when
    time.ParseDuration rejects the metric interval, and the error of
    session.NewSession never reaches the caller: with any other session
    error (or none) the constructor's result is the same. *)
Theorem NewCloudWatchProvider_error metricInterval address :
  ((exists pr e,
      NewCloudWatchProvider sdk metricInterval address = Returns (pr, Some e))
   <-> (exists e, snd (time_ParseDuration sdk metricInterval) = Some e))
  /\ (forall err : Config -> option error,
        NewCloudWatchProvider (withSessionError sdk err) metricInterval address
        = NewCloudWatchProvider sdk metricInterval address).
Proof.
  split.
  - rewrite NewCloudWatchProvider_cases.
    destruct (time_ParseDuration sdk metricInterval) as [md [e|]]; cbn [snd].
    + split; intros _; eauto.
    + split.
      * intros (pr & e & H).
        destruct (cloudwatch_New sdk _); discriminate.
      * intros (e & H). discriminate.
  - intros err. unfold NewCloudWatchProvider, withSessionError. cbn.
    destruct (session_NewSession sdk (sessionConfig address)) as [sess e0].
    reflexivity.
Qed.

End ProviderFacts.

(** A decoded query answered with a first non-empty series: the first value. *)
Lemma RunQuery_first_value_witness :
  providers.RunQuery providers.sampleSDK
    (providers.mkCloudWatchProvider
       (providers.answering providers.sampleResults) 600000000000)
    "[]" providers.sampleWorld
  = (providers.Returns (42.5%float, None),
     providers.mkWorld 1000000000000
       [providers.mkGetMetricDataInput (Some 1000000000000) (Some 20)
          (Some 400000000000) []]).
Proof.
  exact (RunQuery_first_value providers.sampleSDK
           (providers.mkCloudWatchProvider
              (providers.answering providers.sampleResults) 600000000000)
           "[]" [] providers.sampleWorld
           (providers.mkGetMetricDataOutput providers.sampleResults None)
           (providers.mkMetricDataResult (Some "q1") None
              [Some 42.5%float; Some 7%float])
           [Some (providers.mkMetricDataResult (Some "q2") None [Some 1%float])]
           (Some 42.5%float) [Some 7%float]
           eq_refl eq_refl eq_refl eq_refl).
Defined.

(** C1 as stated fails: a response whose second result has a value while its
    first has none makes RunQuery return the "no values" error, not a value. *)
Lemma RunQuery_later_result_ignored :
  (exists r, In (Some r) providers.laterResults /\ providers.Values r <> [])
  /\ fst (providers.RunQuery providers.sampleSDK
            (providers.mkCloudWatchProvider
               (providers.answering providers.laterResults) 600000000000)
            "[]" providers.sampleWorld)
     = providers.Returns
         (0%float,
          Some (providers.errorString "no values found in response: {}")).
Proof.
  split.
  - eexists. split.
    + right. left. reflexivity.
    + discriminate.
  - reflexivity.
Qed.

(** An empty first series, a later one with a value: the "no values" error. *)
Lemma RunQuery_no_data_witness :
  providers.RunQuery providers.sampleSDK
    (providers.mkCloudWatchProvider
       (providers.answering providers.laterResults) 600000000000)
    "[]" providers.sampleWorld
  = (providers.Returns
       (0%float, Some (providers.errorString "no values found in response: {}")),
     providers.mkWorld 1000000000000
       [providers.mkGetMetricDataInput (Some 1000000000000) (Some 20)
          (Some 400000000000) []]).
Proof.
  exact (RunQuery_no_data providers.sampleSDK
           (providers.mkCloudWatchProvider
              (providers.answering providers.laterResults) 600000000000)
           "[]" [] providers.sampleWorld
           (providers.mkGetMetricDataOutput providers.laterResults None)
           eq_refl eq_refl
           (or_intror
              (ex_intro _ (providers.mkMetricDataResult (Some "q1") None [])
                 (ex_intro _
                    [Some (providers.mkMetricDataResult (Some "q2") None
                             [Some 1.5%float])]
                    (conj eq_refl eq_refl))))).
Defined.

(** A query that is no JSON: the error, and an untouched request list. *)
Lemma RunQuery_malformed_query_witness :
  fst (providers.RunQuery providers.sampleSDK
         (providers.mkCloudWatchProvider
            (providers.answering providers.sampleResults) 600000000000)
         "[{" providers.sampleWorld)
  = providers.Returns
      (0%float,
       Some (providers.errorString
               "error unmarshaling query: unexpected end of JSON input"))
  /\ providers.requests
       (snd (providers.RunQuery providers.sampleSDK
               (providers.mkCloudWatchProvider
                  (providers.answering providers.sampleResults) 600000000000)
               "[{" providers.sampleWorld))
     = [].
Proof.
  exact (RunQuery_malformed_query providers.sampleSDK
           (providers.mkCloudWatchProvider
              (providers.answering providers.sampleResults) 600000000000)
           "[{" [] (providers.errorString "unexpected end of JSON input")
           providers.sampleWorld eq_refl).
Defined.

(** A backend that refuses the request: the error comes with the value 0. *)
Lemma RunQuery_error_value_witness :
  providers.RunQuery providers.sampleSDK
    (providers.mkCloudWatchProvider
       (providers.failing (providers.RequestFailure 403 "AccessDenied"))
       600000000000)
    "[]" providers.sampleWorld
  = (providers.Returns
       (0%float,
        Some (providers.errorString "error requesting cloudwatch: AccessDenied")),
     providers.mkWorld 1000000000000
       [providers.mkGetMetricDataInput (Some 1000000000000) (Some 20)
          (Some 400000000000) []])
  /\ 0%float = 0%float.
Proof.
  split.
  - reflexivity.
  - exact (RunQuery_error_value providers.sampleSDK
             (providers.mkCloudWatchProvider
                (providers.failing (providers.RequestFailure 403 "AccessDenied"))
                600000000000)
             "[]" providers.sampleWorld 0%float
             (providers.errorString "error requesting cloudwatch: AccessDenied")
             (providers.mkWorld 1000000000000
                [providers.mkGetMetricDataInput (Some 1000000000000) (Some 20)
                   (Some 400000000000) []])
             eq_refl).
Defined.

(** A backend that answers the probe with 400 Bad Request is online. *)
Lemma IsOnline_reachability_witness :
  fst (providers.IsOnline
         (providers.mkCloudWatchProvider
            (providers.failing (providers.RequestFailure 400 "ValidationError")) 0)
         providers.sampleWorld)
  = providers.Returns (true, None).
Proof.
  apply (proj1 (IsOnline_reachability
                  (providers.mkCloudWatchProvider
                     (providers.failing
                        (providers.RequestFailure 400 "ValidationError")) 0)
                  providers.sampleWorld)).
  right. exists "ValidationError". reflexivity.
Defined.

(** [IsOnline] on three backends: a bad request is a reachable backend, a
    forbidden one and a broken connection are not. *)
Example IsOnline_bad_request :
  fst (providers.IsOnline
         (providers.mkCloudWatchProvider
            (providers.failing (providers.RequestFailure 400 "ValidationError")) 0)
         providers.sampleWorld)
  = providers.Returns (true, None).
Proof. reflexivity. Qed.

Example IsOnline_forbidden :
  fst (providers.IsOnline
         (providers.mkCloudWatchProvider
            (providers.failing (providers.RequestFailure 403 "AccessDenied")) 0)
         providers.sampleWorld)
  = providers.Returns
      (false,
       Some (providers.errorString "unexpected status code: AccessDenied")).
Proof. reflexivity. Qed.

Example IsOnline_no_route :
  fst (providers.IsOnline
         (providers.mkCloudWatchProvider
            (providers.failing (providers.errorString "dial tcp: no route to host")) 0)
         providers.sampleWorld)
  = providers.Returns
      (false,
       Some (providers.errorString "unexpected error: dial tcp: no route to host")).
Proof. reflexivity. Qed.

(** The constructor on the sample SDK: an interval that parses, one that
    does not. *)
Example NewCloudWatchProvider_one_minute :
  providers.NewCloudWatchProvider providers.sampleSDK "1m"
    "monitoring.eu-west-1.amazonaws.com"
  = providers.Returns
      (Some (providers.mkCloudWatchProvider
               (providers.answering providers.sampleResults) 600000000000),
       None).
Proof. reflexivity. Qed.

Example NewCloudWatchProvider_bad_interval :
  providers.NewCloudWatchProvider providers.sampleSDK "soon"
    "monitoring.eu-west-1.amazonaws.com"
  = providers.Returns
      (None,
       Some (providers.errorString
               "error parsing metric interval: time: invalid duration")).
Proof. reflexivity. Qed.

(* ------------------------------------------------------------------ *)
(** * The region of the session *)

Section TrimFacts.

Import strings.








End TrimFacts.



(* ------------------------------------------------------------------ *)
(** * Properties of the scheduler *)

Section SchedulerFacts.

Import controller.

(** The daemonset tests of the repository hold of [advanceCanary]. *)
Lemma scheduler_tests_pass :
  TestScheduler_DaemonSetInit advanceCanary = true
  /\ TestScheduler_DaemonSetRollback advanceCanary = true
  /\ TestScheduler_DaemonSetSkipAnalysis advanceCanary = true
  /\ TestScheduler_DaemonSetNewRevisionReset advanceCanary = true
  /\ TestScheduler_DaemonSetPromotion advanceCanary = true
  /\ TestScheduler_DaemonSetMirroring advanceCanary = true
  /\ TestScheduler_DaemonSetABTesting advanceCanary = true.
Proof. repeat split; vm_compute; reflexivity. Qed.

(** With the skip rule in the specification's words the skip test fails: its
    last assertion finds [Promoting] where it expects [Succeeded]. *)
Lemma skip_test_fails_on_spec_rule :
  TestScheduler_DaemonSetSkipAnalysis advanceCanary_spec = false.
Proof. vm_compute. reflexivity. Qed.

(** The first scenario of section 8: step 10, max 50, checks that pass. *)
Example scenario_promotion :
  observe 9 (scenarioFixture 10 mockObserver)
  = [ (CanaryPhaseProgressing, (100, 0, false));
      (CanaryPhaseProgressing, (90, 10, false));
      (CanaryPhaseProgressing, (80, 20, false));
      (CanaryPhaseProgressing, (70, 30, false));
      (CanaryPhaseProgressing, (60, 40, false));
      (CanaryPhaseProgressing, (50, 50, false));
      (CanaryPhasePromoting, (50, 50, false));
      (CanaryPhaseFinalising, (100, 0, false));
      (CanaryPhaseSucceeded, (100, 0, false)) ].
Proof. vm_compute. reflexivity. Qed.

(** The second: a check that fails on the third tick, with a failure
    maximum of 1, fails the rollout on that tick and names the check. *)
Example scenario_rollback :
  let f2 := advanceCanary (advanceCanary (scenarioFixture 1 mockObserver)) in
  let f3 := advanceCanary (withObserver f2 (fun _ => (0%float, None))) in
  GetRoutes f2 = (90, 10, false)
  /\ Phase (status f3) = CanaryPhaseFailed
  /\ GetRoutes f3 = (100, 0, false)
  /\ FailedChecks (status f3) = 0
  /\ alerts f3 = ["request-success-rate"].
Proof. vm_compute. repeat split; reflexivity. Qed.

(** The two ticks differ on a skipped analysis only. *)
Lemma advanceCanary_spec_agrees f :
  (Phase (status f) = CanaryPhaseProgressing ->
   SkipAnalysis (canary f) = true -> hasTargetChanged f = true) ->
  advanceCanary_spec f = advanceCanary f.
Proof.
  intros H. unfold advanceCanary_spec, advanceCanary, advanceCanaryWith.
  destruct (Phase (status f)); try reflexivity.
  destruct (hasTargetChanged f); [reflexivity|].
  destruct (SkipAnalysis (canary f)); [|reflexivity].
  discriminate H; reflexivity.
Qed.

(** Comparisons, as [lia] reads them. *)
Ltac zbool :=
  repeat match goal with
    | H : (_ <? _) = true |- _ => apply Z.ltb_lt in H
    | H : (_ <? _) = false |- _ => apply Z.ltb_ge in H
    | H : (_ <=? _) = true |- _ => apply Z.leb_le in H
    | H : (_ <=? _) = false |- _ => apply Z.leb_gt in H
    | H : (_ =? _) = true |- _ => apply Z.eqb_eq in H
    | H : (_ =? _) = false |- _ => apply Z.eqb_neq in H
    end.

(** Every branch of a tick, one goal each. *)
Ltac tick_cases :=
  unfold advanceCanary, advanceCanaryWith, skipAnalysis, analyse, advance;
  repeat match goal with
    | |- context [match ?x with _ => _ end] => destruct x eqn:?
    end;
  cbn in *.

Lemma advanceCanary_splitKept f : splitKept f -> splitKept (advanceCanary f).
Proof.
  unfold splitKept. intros [H | H].
  - unfold advanceCanary, advanceCanaryWith. rewrite H.
    destruct (healthy f); [right; reflexivity | left; assumption].
  - right. tick_cases; unfold stepWeights; cbn; lia.
Qed.

Lemma step_splitKept f ev : keepsSplit ev -> splitKept f -> splitKept (step f ev).
Proof.
  destruct ev; cbn [step]; intros Hev Hf;
    try (apply advanceCanary_splitKept; assumption);
    try exact Hf.
  right. exact Hev.
Qed.

Lemma run_splitKept evs :
  forall f, Forall keepsSplit evs -> splitKept f -> splitKept (run evs f).
Proof.
  induction evs as [|ev evs IH]; intros f Hevs Hf.
  - exact Hf.
  - inversion Hevs; subst. cbn. apply IH; [assumption|].
    now apply step_splitKept.
Qed.

(** A tick leaves the rollout definition alone. *)
Lemma advanceCanary_canary f : canary (advanceCanary f) = canary f.
Proof. tick_cases; reflexivity. Qed.

(** The strategy found by a case analysis, told to the well-formedness. *)
Ltac know_strategy :=
  repeat match goal with
    | E : Advance (Analysis (canary ?f)) = _,
      H : context [Advance (Analysis (canary ?f))] |- _ =>
        lazymatch type of H with
        | Advance _ = _ => fail
        | _ => rewrite E in H
        end
    end.

Lemma advanceCanary_percentagesKept f :
  percentagesKept f -> percentagesKept (advanceCanary f).
Proof.
  unfold percentagesKept. intros [Hwf H].
  split; [rewrite advanceCanary_canary; assumption|].
  unfold wellFormed, percentages in *. destruct H as [H | H].
  - unfold advanceCanary, advanceCanaryWith. rewrite H.
    destruct (healthy f); cbn; [right; lia | left; assumption].
  - right. tick_cases; know_strategy; zbool;
      unfold stepWeights; cbn; lia.
Qed.

Lemma step_percentagesKept f ev :
  admissible ev -> percentagesKept f -> percentagesKept (step f ev).
Proof.
  destruct ev; cbn [step admissible]; intros Hev Hf;
    try (apply advanceCanary_percentagesKept; assumption);
    try exact Hf.
  - destruct Hf as [_ Hf]. split; assumption.
  - destruct Hf as [Hwf _]. split; [assumption | right; exact Hev].
Qed.

Lemma run_percentagesKept evs :
  forall f, Forall admissible evs -> percentagesKept f ->
            percentagesKept (run evs f).
Proof.
  induction evs as [|ev evs IH]; intros f Hevs Hf.
  - exact Hf.
  - inversion Hevs; subst. cbn. apply IH; [assumption|].
    now apply step_percentagesKept.
Qed.

(** A tick that starts and ends in [Progressing] and is no reset does not
    lower the canary weight. *)
Lemma advanceCanary_monotone f :
  percentagesKept f ->
  Phase (status f) = CanaryPhaseProgressing ->
  hasTargetChanged f = false ->
  Phase (status (advanceCanary f)) = CanaryPhaseProgressing ->
  canaryWeight (router f) <= canaryWeight (router (advanceCanary f)).
Proof.
  unfold percentagesKept, percentages, wellFormed.
  intros [Hwf [H | H]] Hphase Hdrift; [congruence|].
  unfold advanceCanary, advanceCanaryWith. rewrite Hphase, Hdrift.
  unfold skipAnalysis, analyse, advance.
  repeat match goal with
    | |- context [match ?x with _ => _ end] => destruct x eqn:?
    end;
    cbn in *; intros Hafter; try discriminate; know_strategy; zbool;
    unfold stepWeights; cbn; lia.
Qed.

(** C5: along every run of the scheduler from an uninitialized rollout, at
    every point in the Progressing phase the Router's primary and canary
    weights sum to 100 (other actors writing the Router keep that sum), and,
    for a rollout definition whose step is not negative and whose maximum is
    a percentage, the next tick does not lower the canary weight unless it
    is a reset (a new drift) or leaves Progressing (a rollback, among
    others). *)
Theorem progressing_weights f0 evs :
  Phase (status f0) = CanaryPhaseInitializing ->
  let f := run evs f0 in
  Phase (status f) = CanaryPhaseProgressing ->
  (Forall keepsSplit evs ->
   primaryWeight (router f) + canaryWeight (router f) = 100)
  /\ (wellFormed (canary f0) -> Forall admissible evs ->
      hasTargetChanged f = false ->
      Phase (status (advanceCanary f)) = CanaryPhaseProgressing ->
      canaryWeight (router f) <= canaryWeight (router (advanceCanary f))).
Proof.
  intros Hinit f Hphase. split.
  - intros Hevs.
    destruct (run_splitKept evs f0 Hevs (or_introl Hinit)) as [H | H].
    + fold f in H. congruence.
    + exact H.
  - intros Hwf Hevs Hdrift Hafter.
    apply advanceCanary_monotone; try assumption.
    apply run_percentagesKept; [assumption|].
    split; [assumption | left; assumption].
Qed.






End SchedulerFacts.

(** The run of the new-revision test reaches 90/10 in Progressing, and the
    next tick moves on to 80/20. *)
Lemma progressing_weights_witness :
  let f := controller.run controller.newRevisionRun
             (controller.newDaemonSetFixture None) in
  controller.GetRoutes f = (90, 10, false)
  /\ controller.primaryWeight (controller.router f)
     + controller.canaryWeight (controller.router f) = 100
  /\ controller.canaryWeight (controller.router f)
     <= controller.canaryWeight
          (controller.router (controller.advanceCanary f)).
Proof.
  destruct (progressing_weights (controller.newDaemonSetFixture None)
              controller.newRevisionRun eq_refl eq_refl) as [Hsum Hmono].
  split; [reflexivity|]. split.
  - apply Hsum. repeat constructor.
  - apply Hmono.
    + cbn. lia.
    + repeat constructor.
    + reflexivity.
    + reflexivity.
Defined.




(* ------------------------------------------------------------------ *)
(** * Further properties of the CloudWatch provider *)

Section ProviderOutcomes.

Import providers.

Context {MetricDataQuery Session : Type}.
Variable sdk : SDK MetricDataQuery Session.
Variable p : CloudWatchProvider MetricDataQuery.

(** X1: when the query decodes and GetMetricData returns a non-nil error,
    RunQuery returns 0 and "error requesting cloudwatch: " followed by the
    error's text, whatever output came with the error (nil included), after
    its one request. *)
Theorem RunQuery_backend_error query cq w res e :
  json_Unmarshal sdk query = (cq, None) ->
  GetMetricData (client p) (queryRequest p cq (clock w)) = (res, Some e) ->
  RunQuery sdk p query w =
    (Returns (0%float, Some (Errorf "error requesting cloudwatch: " (Error e))),
     mkWorld (clock w) (requests w ++ [queryRequest p cq (clock w)])).
Proof.
  intros Hq Hres. rewrite (RunQuery_request _ _ _ _ _ Hq). cbv zeta.
  rewrite Hres. destruct res; reflexivity.
Qed.

(** X2: RunQuery never sends more than one request: the request list is
    unchanged when the query does not decode, and otherwise grows by exactly
    the request for the decoded queries, with EndTime now, MaxDatapoints 20
    and StartTime now minus the start delta (negated as an int64), whatever
    the backend answers. *)
Theorem RunQuery_one_request query w :
  requests (snd (RunQuery sdk p query w)) =
    match snd (json_Unmarshal sdk query) with
    | Some _ => requests w
    | None =>
        (requests w ++
         [mkGetMetricDataInput (Some (clock w)) (Some 20)
            (Some (Add (clock w) (wrap64 (- startDelta p))))
            (fst (json_Unmarshal sdk query))])%list
    end.
Proof.
  destruct (json_Unmarshal sdk query) as [cq [e0|]] eqn:Hq; cbn [fst snd].
  - rewrite (RunQuery_unmarshal_error _ _ _ _ _ _ Hq). reflexivity.
  - rewrite (RunQuery_request _ _ _ _ _ Hq). cbv zeta.
    destruct (GetMetricData (client p) _) as [[res|] [e1|]]; try reflexivity.
    destruct (MetricDataResults res) as [|[r0|] rest]; try reflexivity.
    destruct (Values r0) as [|v0 vs]; reflexivity.
Qed.


(** X4: a nil error out of RunQuery always comes with a value the backend
    sent: the query decoded, the call succeeded, and the returned value is
    the first value of the first result of the response. *)
Theorem RunQuery_nil_error query w v w' :
  RunQuery sdk p query w = (Returns (v, None), w') ->
  exists cq res r0 rest v0 vs,
    json_Unmarshal sdk query = (cq, None)
    /\ GetMetricData (client p) (queryRequest p cq (clock w)) = (Some res, None)
    /\ MetricDataResults res = Some r0 :: rest
    /\ Values r0 = v0 :: vs
    /\ v = Float64Value v0.
Proof.
  destruct (json_Unmarshal sdk query) as [cq [e0|]] eqn:Hq.
  - rewrite (RunQuery_unmarshal_error _ _ _ _ _ _ Hq). discriminate.
  - rewrite (RunQuery_request _ _ _ _ _ Hq). cbv zeta.
    destruct (GetMetricData (client p) (queryRequest p cq (clock w)))
      as [[res|] [e1|]] eqn:Hres; try discriminate.
    destruct (MetricDataResults res) as [|[r0|] rest] eqn:Hmr; try discriminate.
    destruct (Values r0) as [|v0 vs] eqn:Hvs; try discriminate.
    intros H. injection H as Hv _.
    exists cq, res, r0, rest, v0, vs.
    repeat split; first [assumption | reflexivity | symmetry; assumption].
Qed.

(** X5: every error RunQuery returns is a fresh fmt.Errorf error whose text
    starts with one of its three formats; the backend's own error, a request
    failure with its status code included, is never returned as such. *)
Theorem RunQuery_error_kind query w v e w' :
  RunQuery sdk p query w = (Returns (v, Some e), w') ->
  exists prefix text,
    In prefix errorPrefixes /\ e = errorString (prefix ++ text).
Proof.
  unfold errorPrefixes.
  destruct (json_Unmarshal sdk query) as [cq [e0|]] eqn:Hq.
  - rewrite (RunQuery_unmarshal_error _ _ _ _ _ _ Hq).
    intros H. injection H as _ <- _. eexists _, _. split; [|reflexivity].
    left. reflexivity.
  - rewrite (RunQuery_request _ _ _ _ _ Hq). cbv zeta.
    destruct (GetMetricData (client p) (queryRequest p cq (clock w)))
      as [[res|] [e1|]]; try discriminate.
    + intros H. injection H as _ <- _. eexists _, _. split; [|reflexivity].
      right. left. reflexivity.
    + destruct (MetricDataResults res) as [|[r0|] rest]; try discriminate.
      * intros H. injection H as _ <- _. eexists _, _. split; [|reflexivity].
        right. right. left. reflexivity.
      * destruct (Values r0) as [|v0 vs]; try discriminate.
        intros H. injection H as _ <- _. eexists _, _. split; [|reflexivity].
        right. right. left. reflexivity.
    + intros H. injection H as _ <- _. eexists _, _. split; [|reflexivity].
      right. left. reflexivity.
Qed.


End ProviderOutcomes.

Section ProviderConstruction.

Import providers.

Context {MetricDataQuery Session : Type}.
Variable sdk : SDK MetricDataQuery Session.

Lemma wrap64_range z : isInt64 (wrap64 z).
Proof.
  unfold isInt64, wrap64.
  pose proof (Z.mod_pos_bound (z + 2 ^ 63) (2 ^ 64) ltac:(lia)). lia.
Qed.

Lemma wrap64_id z : isInt64 z -> wrap64 z = z.
Proof.
  unfold isInt64, wrap64. intros H.
  rewrite Z.mod_small by lia. lia.
Qed.

(** The world after [RunQuery], by the outcome of the decoding. *)
Lemma RunQuery_world (p : CloudWatchProvider MetricDataQuery) query w :
  snd (RunQuery sdk p query w) =
    match json_Unmarshal sdk query with
    | (_, Some _) => w
    | (cq, None) =>
        mkWorld (clock w) (requests w ++ [queryRequest p cq (clock w)])
    end.
Proof.
  destruct (json_Unmarshal sdk query) as [cq [e0|]] eqn:Hq.
  - rewrite (RunQuery_unmarshal_error _ _ _ _ _ _ Hq). reflexivity.
  - rewrite (RunQuery_request _ _ _ _ _ Hq). cbv zeta.
    destruct (GetMetricData (client p) _) as [[res|] [e1|]]; try reflexivity.
    destruct (MetricDataResults res) as [|[r0|] rest]; try reflexivity.
    destruct (Values r0) as [|v0 vs]; reflexivity.
Qed.

(** X6: a provider built for a metric interval [md] queries the window of
    ten intervals up to now, as long as ten intervals fit an int64: its
    request has EndTime now and StartTime now - 10 * md. *)
Theorem NewCloudWatchProvider_window metricInterval address pr md query cq w :
  NewCloudWatchProvider sdk metricInterval address = Returns (Some pr, None) ->
  time_ParseDuration sdk metricInterval = (md, None) ->
  - 2 ^ 63 < 10 * md < 2 ^ 63 ->
  json_Unmarshal sdk query = (cq, None) ->
  requests (snd (RunQuery sdk pr query w)) =
    (requests w ++
     [mkGetMetricDataInput (Some (clock w)) (Some 20)
        (Some (clock w - 10 * md)) cq])%list.
Proof.
  intros Hnew Hparse Hrange Hq.
  assert (Hd : startDelta pr = wrap64 (10 * md)).
  { rewrite NewCloudWatchProvider_cases, Hparse in Hnew.
    destruct (cloudwatch_New sdk _) as [c|]; [|discriminate].
    injection Hnew as <-. reflexivity. }
  rewrite RunQuery_world, Hq. unfold queryRequest, Add, requests.
  rewrite Hd.
  rewrite (wrap64_id (10 * md)) by (unfold isInt64; lia).
  rewrite (wrap64_id (- (10 * md))) by (unfold isInt64; lia).
  repeat f_equal; lia.
Qed.

(** X7: the start delta of a provider the constructor returns is an int64,
    and it is ten times the parsed interval exactly when that product fits
    an int64; beyond it the product has wrapped around. *)
Theorem NewCloudWatchProvider_startDelta metricInterval address pr md :
  NewCloudWatchProvider sdk metricInterval address = Returns (Some pr, None) ->
  time_ParseDuration sdk metricInterval = (md, None) ->
  isInt64 (startDelta pr)
  /\ (startDelta pr = 10 * md <-> isInt64 (10 * md))
  /\ (2 ^ 63 <= 10 * md < 2 ^ 64 -> startDelta pr = 10 * md - 2 ^ 64).
Proof.
  intros Hnew Hparse.
  rewrite NewCloudWatchProvider_cases, Hparse in Hnew.
  assert (Hd : startDelta pr = wrap64 (10 * md)).
  { destruct (cloudwatch_New sdk _) as [c|]; [|discriminate].
    injection Hnew as <-. reflexivity. }
  rewrite Hd. clear Hnew Hd.
  split; [apply wrap64_range|]. split.
  - split.
    + intros H. rewrite <- H. apply wrap64_range.
    + apply wrap64_id.
  - intros H. unfold wrap64.
    replace (10 * md + 2 ^ 63) with (10 * md - 2 ^ 63 + 1 * 2 ^ 64) by lia.
    rewrite Z.mod_add by lia. rewrite Z.mod_small by lia. lia.
Qed.

(** X8: whenever the constructor returns, exactly one of the provider and
    the error is nil: either no provider and the "error parsing metric
    interval" error of a rejected interval, or a provider around the client
    of the new session, with no error. *)
Theorem NewCloudWatchProvider_shape metricInterval address pr err :
  NewCloudWatchProvider sdk metricInterval address = Returns (pr, err) ->
  (pr = None
   /\ exists e,
        snd (time_ParseDuration sdk metricInterval) = Some e
        /\ err = Some (Errorf "error parsing metric interval: " (Error e)))
  \/ (err = None
      /\ snd (time_ParseDuration sdk metricInterval) = None
      /\ exists c,
           cloudwatch_New sdk
             (fst (session_NewSession sdk (sessionConfig address))) = Some c
           /\ pr = Some (mkCloudWatchProvider c
                           (wrap64 (10 * fst (time_ParseDuration sdk metricInterval))))).
Proof.
  rewrite NewCloudWatchProvider_cases.
  destruct (time_ParseDuration sdk metricInterval) as [md [e|]]; cbn [fst snd].
  - intros H. injection H as <- <-. left. split; [reflexivity|].
    exists e. split; reflexivity.
  - destruct (cloudwatch_New sdk _) as [c|]; [|discriminate].
    intros H. injection H as <- <-. right. repeat split.
    exists c. split; reflexivity.
Qed.

End ProviderConstruction.

Section TrimExact.

Import strings.








End TrimExact.




(** A refused request: the "error requesting cloudwatch" error with 0. *)
Lemma RunQuery_backend_error_witness :
  providers.RunQuery providers.sampleSDK
    (providers.mkCloudWatchProvider
       (providers.failing (providers.RequestFailure 403 "AccessDenied"))
       600000000000)
    "[]" providers.sampleWorld
  = (providers.Returns
       (0%float,
        Some (providers.errorString "error requesting cloudwatch: AccessDenied")),
     providers.mkWorld 1000000000000
       [providers.mkGetMetricDataInput (Some 1000000000000) (Some 20)
          (Some 400000000000) []]).
Proof.
  exact (RunQuery_backend_error providers.sampleSDK
           (providers.mkCloudWatchProvider
              (providers.failing (providers.RequestFailure 403 "AccessDenied"))
              600000000000)
           "[]" [] providers.sampleWorld None
           (providers.RequestFailure 403 "AccessDenied") eq_refl eq_refl).
Defined.

(** A client that answers nothing at all makes RunQuery panic; a nil
    pointer among the values does not. *)
Example RunQuery_panics_on_silence :
  fst (providers.RunQuery providers.sampleSDK
         (providers.mkCloudWatchProvider providers.silent 600000000000)
         "[]" providers.sampleWorld)
  = providers.Panics.
Proof. reflexivity. Qed.

Example RunQuery_nil_value :
  fst (providers.RunQuery providers.sampleSDK
         (providers.mkCloudWatchProvider
            (providers.answering
               [Some (providers.mkMetricDataResult None None [None]); None])
            600000000000)
         "[]" providers.sampleWorld)
  = providers.Returns (0%float, None).
Proof. reflexivity. Qed.

(** The nil error of the sample backend comes with its first value. *)
Lemma RunQuery_nil_error_witness :
  exists cq res r0 rest v0 vs,
    providers.json_Unmarshal providers.sampleSDK "[]" = (cq, None)
    /\ providers.GetMetricData (providers.answering providers.sampleResults)
         (providers.queryRequest
            (providers.mkCloudWatchProvider
               (providers.answering providers.sampleResults) 600000000000)
            cq 1000000000000)
       = (Some res, None)
    /\ providers.MetricDataResults res = Some r0 :: rest
    /\ providers.Values r0 = v0 :: vs
    /\ 42.5%float = providers.Float64Value v0.
Proof.
  exact (RunQuery_nil_error providers.sampleSDK
           (providers.mkCloudWatchProvider
              (providers.answering providers.sampleResults) 600000000000)
           "[]" providers.sampleWorld 42.5%float
           (providers.mkWorld 1000000000000
              [providers.mkGetMetricDataInput (Some 1000000000000) (Some 20)
                 (Some 400000000000) []])
           eq_refl).
Defined.

(** The error of a refused request is a plain error with the second
    format; the status code 403 is gone. *)
Lemma RunQuery_error_kind_witness :
  exists prefix text,
    In prefix providers.errorPrefixes
    /\ providers.errorString "error requesting cloudwatch: AccessDenied"
       = providers.errorString (prefix ++ text).
Proof.
  exact (RunQuery_error_kind providers.sampleSDK
           (providers.mkCloudWatchProvider
              (providers.failing (providers.RequestFailure 403 "AccessDenied"))
              600000000000)
           "[]" providers.sampleWorld 0%float
           (providers.errorString "error requesting cloudwatch: AccessDenied")
           (providers.mkWorld 1000000000000
              [providers.mkGetMetricDataInput (Some 1000000000000) (Some 20)
                 (Some 400000000000) []])
           eq_refl).
Defined.

(** A provider built for "1m" asks for the last ten minutes. *)
Lemma NewCloudWatchProvider_window_witness :
  providers.requests
    (snd (providers.RunQuery providers.sampleSDK
            (providers.mkCloudWatchProvider
               (providers.answering providers.sampleResults) 600000000000)
            "[]" providers.sampleWorld))
  = [providers.mkGetMetricDataInput (Some 1000000000000) (Some 20)
       (Some (1000000000000 - 10 * 60000000000)) []].
Proof.
  apply (NewCloudWatchProvider_window providers.sampleSDK "1m"
           "monitoring.eu-west-1.amazonaws.com"
           (providers.mkCloudWatchProvider
              (providers.answering providers.sampleResults) 600000000000)
           60000000000 "[]" [] providers.sampleWorld).
  - reflexivity.
  - reflexivity.
  - lia.
  - reflexivity.
Defined.

(** For "1m" the start delta is ten minutes, an int64. *)
Lemma NewCloudWatchProvider_startDelta_witness :
  providers.isInt64 600000000000
  /\ (600000000000 = 10 * 60000000000 <-> providers.isInt64 (10 * 60000000000))
  /\ (2 ^ 63 <= 10 * 60000000000 < 2 ^ 64 ->
      600000000000 = 10 * 60000000000 - 2 ^ 64).
Proof.
  exact (NewCloudWatchProvider_startDelta providers.sampleSDK "1m"
           "monitoring.eu-west-1.amazonaws.com"
           (providers.mkCloudWatchProvider
              (providers.answering providers.sampleResults) 600000000000)
           60000000000 eq_refl eq_refl).
Defined.

(** An interval of 10^18 ns (some 31 years): ten of them do not fit an
    int64, the start delta is negative and the window starts after it ends. *)
Example NewCloudWatchProvider_wrapped_interval :
  providers.NewCloudWatchProvider providers.longIntervalSDK "277777h46m40s"
    "monitoring.eu-west-1.amazonaws.com"
  = providers.Returns
      (Some (providers.mkCloudWatchProvider
               (providers.answering providers.sampleResults)
               (-8446744073709551616)),
       None)
  /\ providers.requests
       (snd (providers.RunQuery providers.longIntervalSDK
               (providers.mkCloudWatchProvider
                  (providers.answering providers.sampleResults)
                  (-8446744073709551616))
               "[]" providers.sampleWorld))
     = [providers.mkGetMetricDataInput (Some 1000000000000) (Some 20)
          (Some 8446745073709551616) []].
Proof. split; reflexivity. Qed.

(** The constructor on "1m": a provider and no error. *)
Lemma NewCloudWatchProvider_shape_witness :
  (Some (providers.mkCloudWatchProvider
           (providers.answering providers.sampleResults) 600000000000) = None
   /\ exists e,
        snd (providers.time_ParseDuration providers.sampleSDK "1m") = Some e
        /\ None = Some (providers.Errorf "error parsing metric interval: "
                          (providers.Error e)))
  \/ (@None providers.error = None
      /\ snd (providers.time_ParseDuration providers.sampleSDK "1m") = None
      /\ exists c,
           providers.cloudwatch_New providers.sampleSDK
             (fst (providers.session_NewSession providers.sampleSDK
                     (providers.sessionConfig
                        "monitoring.eu-west-1.amazonaws.com"))) = Some c
           /\ Some (providers.mkCloudWatchProvider
                      (providers.answering providers.sampleResults) 600000000000)
              = Some (providers.mkCloudWatchProvider c
                        (providers.wrap64
                           (10 * fst (providers.time_ParseDuration
                                        providers.sampleSDK "1m"))))).
Proof.
  exact (NewCloudWatchProvider_shape providers.sampleSDK "1m"
           "monitoring.eu-west-1.amazonaws.com"
           (Some (providers.mkCloudWatchProvider
                    (providers.answering providers.sampleResults) 600000000000))
           None eq_refl).
Defined.


(** The endpoint of the China partition keeps its region too, and the
    endpoint without a region has none. *)
Example sessionConfig_region_china :
  providers.Region
    (providers.sessionConfig "monitoring.cn-north-1.amazonaws.com.cn")
  = Some "cn-north-1".
Proof. reflexivity. Qed.

Example sessionConfig_region_global :
  providers.Region (providers.sessionConfig "monitoring.amazonaws.com")
  = Some "".
Proof. reflexivity. Qed.
